(** * Pairwise string comparison evaluator (langchain.evaluation)

    Shallow embedding of
    - [src/langchain/evaluation/schema.py]: the argument-check mixin
      [_EvalArgsMixin] and the [PairwiseStringEvaluator] entry points;
    - [src/langchain/evaluation/comparison/eval_chain.py]: the verdict parser
      [PairwiseStringResultOutputParser] and [PairwiseStringEvalChain].

    A Python [str] is a sequence of Unicode code points; it is modelled as a
    [list Z] of code points.  Python exceptions are the [Err] branch of a
    result type; [warnings.warn] is a writer log of the emitted messages. *)

From Stdlib Require Import ZArith List Bool String Ascii QArith.
Import ListNotations.
Open Scope Z_scope.

(** ** Python strings *)

Definition pystr := list Z.

(** Literal conversion, for the ASCII literals of the source. *)
Fixpoint lit (s : string) : pystr :=
  match s with
  | EmptyString => []
  | String a s' => Z.of_N (N_of_ascii a) :: lit s'
  end.

Definition NL : Z := 10.

Definition str_eqb (a b : pystr) : bool :=
  if list_eq_dec Z.eq_dec a b then true else false.

(** [x in xs] for a Python container of strings. *)
Definition py_in (x : pystr) (xs : list pystr) : bool :=
  existsb (str_eqb x) xs.

(** [str.isspace] on one code point: the characters CPython's
    [Py_UNICODE_ISSPACE] accepts, which [str.strip()] removes. *)
Definition py_isspace (c : Z) : bool :=
  ((9 <=? c) && (c <=? 13)) || ((28 <=? c) && (c <=? 31)) || (c =? 32)
  || (c =? 133) || (c =? 160) || (c =? 5760)
  || ((8192 <=? c) && (c <=? 8202))
  || (c =? 8232) || (c =? 8233) || (c =? 8239) || (c =? 8287)
  || (c =? 12288).

Fixpoint lstrip_by (p : Z -> bool) (s : pystr) : pystr :=
  match s with
  | [] => []
  | c :: s' => if p c then lstrip_by p s' else s
  end.

Definition rstrip_by (p : Z -> bool) (s : pystr) : pystr :=
  rev (lstrip_by p (rev s)).

Definition strip_by (p : Z -> bool) (s : pystr) : pystr :=
  rstrip_by p (lstrip_by p s).

(** [s.strip()] *)
Definition py_strip (s : pystr) : pystr := strip_by py_isspace s.

(** [s.lstrip()] *)
Definition py_lstrip (s : pystr) : pystr := lstrip_by py_isspace s.

(** [s.strip(chars)] *)
Definition py_strip_chars (chars s : pystr) : pystr :=
  strip_by (fun c => existsb (Z.eqb c) chars) s.

(** Split at the first occurrence of [sep]: the part before and the part
    after it. *)
Fixpoint break_at (sep : Z) (s : pystr) : option (pystr * pystr) :=
  match s with
  | [] => None
  | c :: s' =>
      if c =? sep then Some ([], s')
      else match break_at sep s' with
           | Some (a, b) => Some (c :: a, b)
           | None => None
           end
  end.

(** [s.rsplit(sep, maxsplit=1)] for a one-character separator: split at the
    last occurrence of [sep], or [[s]] when [sep] does not occur. *)
Definition rsplit1 (sep : Z) (s : pystr) : list pystr :=
  match break_at sep (rev s) with
  | None => [s]
  | Some (after_rev, before_rev) => [rev before_rev; rev after_rev]
  end.

(** ** Exceptions and results *)

Inductive exn : Type :=
| ValueError (msg : pystr).

Inductive res (A : Type) : Type :=
| Ok (a : A)
| Err (e : exn).
Arguments Ok {A} a.
Arguments Err {A} e.

Definition res_bind {A B} (m : res A) (f : A -> res B) : res B :=
  match m with
  | Ok a => f a
  | Err e => Err e
  end.

Notation "x <- m ;; k" := (res_bind m (fun x => k))
  (at level 61, m at next level, right associativity).

(** Tuple unpacking [a, b = xs]. *)
Definition unpack2 {A} (xs : list A) : res (A * A) :=
  match xs with
  | [a; b] => Ok (a, b)
  | [_] => Err (ValueError (lit "not enough values to unpack (expected 2, got 1)"))
  | [] => Err (ValueError (lit "not enough values to unpack (expected 2, got 0)"))
  | _ => Err (ValueError (lit "too many values to unpack (expected 2)"))
  end.

(** Python numbers occurring as scores: the int literals [1], [0] and the
    float literal [0.5] (exactly representable, kept as a rational). *)
Inductive pynum : Type :=
| PyInt (z : Z)
| PyFloat (q : Q).

(** ** PairwiseStringResultOutputParser.parse *)

Record parse_result : Type := {
  reasoning : pystr;
  value : option pystr;
  score : option pynum
}.

(** The dict [{"A": 1, "B": 0, None: 0.5}] and its [.get]. *)
Definition score_table : list (option pystr * pynum) :=
  [(Some (lit "A"), PyInt 1); (Some (lit "B"), PyInt 0); (None, PyFloat (1 # 2))].

Definition key_eqb (a b : option pystr) : bool :=
  match a, b with
  | Some x, Some y => str_eqb x y
  | None, None => true
  | _, _ => false
  end.

Fixpoint dict_get {V} (d : list (option pystr * V)) (k : option pystr) : option V :=
  match d with
  | [] => None
  | (k', v) :: d' => if key_eqb k k' then Some v else dict_get d' k
  end.

Definition invalid_verdict_msg (verdict : pystr) : pystr :=
  lit "Invalid verdict: " ++ verdict
  ++ lit ". Verdict must be one of 'A', 'B', or 'C'.".

(** [verdict.strip("[").strip("]")] *)
Definition strip_brackets (verdict : pystr) : pystr :=
  py_strip_chars (lit "]") (py_strip_chars (lit "[") verdict).

Definition parse (text : pystr) : res parse_result :=
  rv <- unpack2 (rsplit1 NL (py_strip text)) ;;
  let (reasoning0, verdict0) := rv in
  let verdict := strip_brackets verdict0 in
  if negb (py_in verdict [lit "A"; lit "B"; lit "C"]) then
    Err (ValueError (invalid_verdict_msg verdict))
  else
    let verdict_ := if str_eqb verdict (lit "C") then None else Some verdict in
    let score0 := dict_get score_table verdict_ in
    Ok {| reasoning := reasoning0; value := verdict_; score := score0 |}.

(** ** Warnings and exceptions: a writer-and-error monad

    [M A] is the list of messages passed to [warnings.warn], in order, with
    the outcome: a value or a raised exception (which ends the run). *)

Definition M (A : Type) : Type := (list pystr * res A)%type.

Definition mret {A} (a : A) : M A := ([], Ok a).

Definition mraise {A} (e : exn) : M A := ([], Err e).

Definition warn (msg : pystr) : M unit := ([msg], Ok tt).

Definition mbind {A B} (m : M A) (f : A -> M B) : M B :=
  match m with
  | (w1, Ok a) => let (w2, r) := f a in (w1 ++ w2, r)
  | (w1, Err e) => (w1, Err e)
  end.

Definition mlift {A} (r : res A) : M A := ([], r).

Notation "m >>= f" := (mbind m f) (at level 58, left associativity).

Definition is_none {A} (o : option A) : bool :=
  match o with None => true | Some _ => false end.

(** ** _EvalArgsMixin

    The mixin reads the evaluator's properties through [self]; a subclass may
    override them.  The overridable properties are the methods of a class. *)

Class EvalArgs (E : Type) : Type := {
  requires_reference : E -> bool;
  requires_input : E -> bool;
  class_name : E -> pystr;
  skip_input_warning : E -> pystr;
  skip_reference_warning : E -> pystr
}.

(** The mixin's own texts of the two warnings. *)
Definition mixin_skip_input_warning (name : pystr) : pystr :=
  lit "Ignoring input in " ++ name ++ lit ", as it is not expected.".

Definition mixin_skip_reference_warning (name : pystr) : pystr :=
  lit "Ignoring reference in " ++ name ++ lit ", as it is not expected.".

Definition _check_evaluation_args {E} `{EvalArgs E}
    (self : E) (reference input : option pystr) : M unit :=
  (if requires_input self && is_none input then
     mraise (ValueError (class_name self ++ lit " requires an input string."))
   else if negb (is_none input) && negb (requires_input self) then
     warn (skip_input_warning self)
   else mret tt) >>= fun _ =>
  (if requires_reference self && is_none reference then
     mraise (ValueError (class_name self ++ lit " requires a reference string."))
   else if negb (is_none reference) && negb (requires_reference self) then
     warn (skip_reference_warning self)
   else mret tt).

(** ** PairwiseStringEvalChain *)

Record PromptTemplate : Type := {
  input_variables : list pystr
}.

Record PairwiseStringEvalChain (L : Type) : Type := {
  llm : L;
  prompt : PromptTemplate
}.
Arguments llm {L} _.
Arguments prompt {L} _.
Arguments Build_PairwiseStringEvalChain {L} _ _.

Definition chain_name : pystr := lit "PairwiseStringEvalChain".

#[global] Instance PairwiseStringEvalChain_EvalArgs (L : Type)
  : EvalArgs (PairwiseStringEvalChain L) := {
  requires_reference self := py_in (lit "reference") (input_variables (prompt self));
  requires_input _ := true;
  class_name _ := chain_name;
  skip_input_warning _ := mixin_skip_input_warning chain_name;
  skip_reference_warning _ :=
    lit "Ignoring reference in " ++ chain_name ++ lit ", as it is not expected."
    ++ [NL] ++ lit "To use a reference, initialize PairwiseStringEvalChain with"
    ++ lit " `requires_reference=True` or with a prompt with 'reference' as an"
    ++ lit " input variable."
}.

(** A Python set of strings, as the list of its elements. *)
Definition set_add (x : pystr) (s : list pystr) : list pystr :=
  if py_in x s then s else s ++ [x].

Definition set_eqb (a b : list pystr) : bool :=
  forallb (fun x => py_in x b) a && forallb (fun x => py_in x a) b.

Section FromLLM.
(** The two default templates of [comparison/prompt.py] and the [repr] of a
    set and of a list used in the error message. *)
Variables PROMPT PROMPT_WITH_REFERENCE : PromptTemplate.
Variables repr_set repr_list : list pystr -> pystr.

Definition from_llm {L} (llm0 : L) (prompt0 : option PromptTemplate)
    (requires_reference0 : bool) : res (PairwiseStringEvalChain L) :=
  let expected0 := [lit "prediction"; lit "prediction_b"; lit "input"] in
  let '(expected_input_vars, prompt_) :=
    match prompt0 with
    | None =>
        if requires_reference0
        then (set_add (lit "reference") expected0, PROMPT_WITH_REFERENCE)
        else (expected0, PROMPT)
    | Some p =>
        ((if requires_reference0
          then set_add (lit "reference") expected0 else expected0), p)
    end in
  if negb (set_eqb expected_input_vars (input_variables prompt_)) then
    Err (ValueError (lit "Input variables should be " ++ repr_set expected_input_vars
                     ++ lit ", but got " ++ repr_list (input_variables prompt_)))
  else Ok (Build_PairwiseStringEvalChain llm0 prompt_).
End FromLLM.

(** A dict [str -> str] in insertion order, and [d[k] = v]. *)
Definition payload := list (pystr * pystr).

Fixpoint dict_set (d : payload) (k v : pystr) : payload :=
  match d with
  | [] => [(k, v)]
  | (k', v') :: d' => if str_eqb k k' then (k, v) :: d' else (k', v') :: dict_set d' k v
  end.

Fixpoint dict_lookup (d : payload) (k : pystr) : option pystr :=
  match d with
  | [] => None
  | (k', v) :: d' => if str_eqb k k' then Some v else dict_lookup d' k
  end.

(** [not x] for [x : Optional[str]]: [None] and [""] are falsy. *)
Definition py_not (o : option pystr) : bool :=
  match o with
  | None => true
  | Some s => match s with [] => true | _ => false end
  end.

Definition _prepare_input {L} (self : PairwiseStringEvalChain L)
    (prediction prediction_b : pystr) (input reference : option pystr)
    : res payload :=
  let input_ := [(lit "prediction", prediction); (lit "prediction_b", prediction_b)] in
  input_ <- (if requires_input self then
               match input with
               | Some i =>
                   if py_not input then
                     Err (ValueError (lit "Input is require for this comparison evaluator"))
                   else Ok (dict_set input_ (lit "input") i)
               | None =>
                   Err (ValueError (lit "Input is require for this comparison evaluator"))
               end
             else Ok input_) ;;
  if requires_reference self then
    match reference with
    | None => Err (ValueError (lit "Reference is required for this comparison evaluator"))
    | Some r => Ok (dict_set input_ (lit "reference") r)
    end
  else Ok input_.

Section Evaluate.
(** [self(inputs=...)] and [await self.acall(inputs=...)]: the LLMChain
    call, synchronous and asynchronous, returning the chain's output dict;
    [get_text] is [result["text"]].  Callbacks and keyword arguments are
    passed through unchanged and are left implicit. *)
Variables (L Out R : Type).
Variable call : PairwiseStringEvalChain L -> payload -> M Out.
Variable acall : PairwiseStringEvalChain L -> payload -> M Out.
Variable get_text : Out -> R.

Definition _evaluate_string_pairs (self : PairwiseStringEvalChain L)
    (prediction prediction_b : pystr) (input reference : option pystr) : M R :=
  mlift (_prepare_input self prediction prediction_b input reference) >>= fun input_ =>
  call self input_ >>= fun result =>
  mret (get_text result).

Definition _aevaluate_string_pairs (self : PairwiseStringEvalChain L)
    (prediction prediction_b : pystr) (reference input : option pystr) : M R :=
  mlift (_prepare_input self prediction prediction_b input reference) >>= fun input_ =>
  acall self input_ >>= fun result =>
  mret (get_text result).

(** [PairwiseStringEvaluator.evaluate_string_pairs] *)
Definition evaluate_string_pairs (self : PairwiseStringEvalChain L)
    (prediction prediction_b : pystr) (reference input : option pystr) : M R :=
  _check_evaluation_args self reference input >>= fun _ =>
  _evaluate_string_pairs self prediction prediction_b input reference.

(** [PairwiseStringEvaluator.aevaluate_string_pairs] *)
Definition aevaluate_string_pairs (self : PairwiseStringEvalChain L)
    (prediction prediction_b : pystr) (reference input : option pystr) : M R :=
  _check_evaluation_args self reference input >>= fun _ =>
  _aevaluate_string_pairs self prediction prediction_b reference input.
End Evaluate.

Arguments _evaluate_string_pairs {L Out R}.
Arguments _aevaluate_string_pairs {L Out R}.
Arguments evaluate_string_pairs {L Out R}.
Arguments aevaluate_string_pairs {L Out R}.

(** ** StringEvaluator

    [evaluate_strings] and [aevaluate_strings] of [schema.py]: the shared
    argument check, then the subclass's [_evaluate_strings] or
    [_aevaluate_strings] (a method of [self], so a parameter here). *)

Section StringEvaluatorSec.
Context {E : Type} `{EvalArgs E}.
Variable Out : Type.
Variable _evaluate_strings : E -> pystr -> option pystr -> option pystr -> M Out.
Variable _aevaluate_strings : E -> pystr -> option pystr -> option pystr -> M Out.

Definition evaluate_strings (self : E) (prediction : pystr)
    (reference input : option pystr) : M Out :=
  _check_evaluation_args self reference input >>= fun _ =>
  _evaluate_strings self prediction reference input.

Definition aevaluate_strings (self : E) (prediction : pystr)
    (reference input : option pystr) : M Out :=
  _check_evaluation_args self reference input >>= fun _ =>
  _aevaluate_strings self prediction reference input.
End StringEvaluatorSec.

Arguments evaluate_strings {E _ Out}.
Arguments aevaluate_strings {E _ Out}.

(** An evaluator class that overrides none of the mixin's properties. *)
Record PlainEvaluator : Type := {
  plain_class_name : pystr
}.

#[global] Instance PlainEvaluator_EvalArgs : EvalArgs PlainEvaluator := {
  requires_reference _ := false;
  requires_input _ := false;
  class_name self := plain_class_name self;
  skip_input_warning self := mixin_skip_input_warning (plain_class_name self);
  skip_reference_warning self := mixin_skip_reference_warning (plain_class_name self)
}.

(** ** Constants and sample values used below *)

Definition unpack1_msg : pystr :=
  lit "not enough values to unpack (expected 2, got 1)".

Definition template_no_reference : PromptTemplate :=
  {| input_variables := [lit "input"; lit "prediction"; lit "prediction_b"] |}.

Definition input_required_msg : pystr :=
  lit "Input is require for this comparison evaluator".

Definition chain_without_reference : PairwiseStringEvalChain unit :=
  Build_PairwiseStringEvalChain tt
    {| input_variables := [lit "prediction"; lit "prediction_b"; lit "input"] |}.

Definition template_with_reference : PromptTemplate :=
  {| input_variables := [lit "input"; lit "prediction"; lit "prediction_b";
                         lit "reference"] |}.

(** * Properties *)

Example parse_B :
  parse (lit "Both are correct, B is more detailed." ++ [NL] ++ lit "[[B]]")
  = Ok {| reasoning := lit "Both are correct, B is more detailed.";
          value := Some (lit "B"); score := Some (PyInt 0) |}.
Proof. reflexivity. Qed.

Example parse_ws :
  parse (lit "  why" ++ [NL] ++ lit "[[C]]" ++ [NL; 32])
  = Ok {| reasoning := lit "why"; value := None; score := Some (PyFloat (1 # 2)) |}.
Proof. reflexivity. Qed.

(** ** Helper lemmas on the string operations *)

Lemma str_eqb_true (a b : pystr) : str_eqb a b = true <-> a = b.
Proof.
  unfold str_eqb; destruct (list_eq_dec Z.eq_dec a b); split; congruence.
Qed.

Lemma lstrip_by_app (p : Z -> bool) (a b : pystr) :
  lstrip_by p (a ++ b) = if forallb p a then lstrip_by p b else lstrip_by p a ++ b.
Proof.
  induction a as [|c a IH]; simpl; [reflexivity|].
  destruct (p c); simpl; auto.
Qed.

Lemma lstrip_by_all (p : Z -> bool) (a : pystr) :
  forallb p a = true -> lstrip_by p a = [].
Proof.
  induction a as [|c a IH]; simpl; [reflexivity|].
  destruct (p c); simpl; [assumption|discriminate].
Qed.

Lemma rstrip_by_app_fixed (p : Z -> bool) (x l : pystr) :
  l <> [] -> rstrip_by p l = l -> rstrip_by p (x ++ l) = x ++ l.
Proof.
  unfold rstrip_by; intros Hne Hl.
  assert (Hr : lstrip_by p (rev l) = rev l).
  { rewrite <- (rev_involutive (lstrip_by p (rev l))), Hl; reflexivity. }
  rewrite rev_app_distr, lstrip_by_app.
  destruct (forallb p (rev l)) eqn:E.
  - exfalso; apply Hne.
    rewrite lstrip_by_all in Hr by exact E.
    destruct l as [|z l]; [reflexivity|]; simpl in Hr.
    exfalso; exact (app_cons_not_nil _ _ _ Hr).
  - rewrite Hr, rev_app_distr, !rev_involutive; reflexivity.
Qed.

Lemma break_at_app (sep : Z) (x y : pystr) :
  ~ In sep x -> break_at sep (x ++ sep :: y) = Some (x, y).
Proof.
  induction x as [|c x IH]; intros Hx; simpl.
  - rewrite Z.eqb_refl; reflexivity.
  - destruct (Z.eqb_spec c sep) as [E|E].
    + exfalso; apply Hx; left; congruence.
    + rewrite IH; [reflexivity|]; intros H; apply Hx; right; exact H.
Qed.

Lemma break_at_none (sep : Z) (s : pystr) :
  ~ In sep s -> break_at sep s = None.
Proof.
  induction s as [|c s IH]; intros Hs; simpl; [reflexivity|].
  destruct (Z.eqb_spec c sep) as [E|E].
  - exfalso; apply Hs; left; congruence.
  - rewrite IH; [reflexivity|]; intros H; apply Hs; right; exact H.
Qed.

Lemma rsplit1_last (sep : Z) (a b : pystr) :
  ~ In sep b -> rsplit1 sep (a ++ sep :: b) = [a; b].
Proof.
  intros Hb; unfold rsplit1.
  rewrite rev_app_distr; simpl; rewrite <- app_assoc; simpl.
  rewrite break_at_app.
  - rewrite !rev_involutive; reflexivity.
  - intros H; apply Hb, in_rev; exact H.
Qed.

Lemma rsplit1_none (sep : Z) (s : pystr) :
  ~ In sep s -> rsplit1 sep s = [s].
Proof.
  intros Hs; unfold rsplit1; rewrite break_at_none; [reflexivity|].
  intros H; apply Hs, in_rev; exact H.
Qed.

(** A reply [reasoning ++ "\n" ++ line], with a last line that has no
    newline and no surrounding whitespace, strips to the reasoning without its
    leading whitespace, or to the last line alone when the reasoning is blank. *)
Lemma py_strip_reply (r l : pystr) :
  l <> [] -> lstrip_by py_isspace l = l -> rstrip_by py_isspace l = l ->
  py_strip (r ++ NL :: l) =
  if forallb py_isspace r then l else py_lstrip r ++ NL :: l.
Proof.
  intros Hne Hl Hr; unfold py_strip, strip_by, py_lstrip.
  rewrite lstrip_by_app.
  destruct (forallb py_isspace r).
  - simpl; rewrite Hl; exact Hr.
  - change (lstrip_by py_isspace r ++ NL :: l) with
      (lstrip_by py_isspace r ++ [NL] ++ l).
    rewrite app_assoc, rstrip_by_app_fixed by assumption.
    rewrite <- app_assoc; reflexivity.
Qed.

Lemma parse_reply (r l : pystr) :
  l <> [] -> lstrip_by py_isspace l = l -> rstrip_by py_isspace l = l ->
  ~ In NL l ->
  parse (r ++ NL :: l) =
  if forallb py_isspace r then Err (ValueError unpack1_msg)
  else
    let verdict := strip_brackets l in
    if negb (py_in verdict [lit "A"; lit "B"; lit "C"]) then
      Err (ValueError (invalid_verdict_msg verdict))
    else
      let verdict_ := if str_eqb verdict (lit "C") then None else Some verdict in
      Ok {| reasoning := py_lstrip r; value := verdict_;
            score := dict_get score_table verdict_ |}.
Proof.
  intros Hne Hl Hr Hnl; unfold parse.
  rewrite py_strip_reply by assumption.
  destruct (forallb py_isspace r).
  - rewrite rsplit1_none by assumption; reflexivity.
  - rewrite rsplit1_last by assumption; reflexivity.
Qed.

Lemma in_ABC (x : pystr) :
  py_in x [lit "A"; lit "B"; lit "C"] = true ->
  x = lit "A" \/ x = lit "B" \/ x = lit "C".
Proof.
  unfold py_in; cbn [existsb].
  destruct (str_eqb x (lit "A")) eqn:EA; [left; apply str_eqb_true; exact EA|].
  destruct (str_eqb x (lit "B")) eqn:EB; [right; left; apply str_eqb_true; exact EB|].
  destruct (str_eqb x (lit "C")) eqn:EC; [right; right; apply str_eqb_true; exact EC|].
  discriminate.
Qed.

(** ** C1: the three well-formed verdict replies *)

(** C1 (counterexample).  A reply whose reasoning starts with a space,
    [" ok\n[[A]]"], does not give back its reasoning text unchanged: the
    reply is trimmed first, so the reasoning returned is ["ok"]. *)
Lemma parse_reasoning_not_verbatim :
  parse (lit " ok" ++ NL :: lit "[[A]]")
  <> Ok {| reasoning := lit " ok"; value := Some (lit "A"); score := Some (PyInt 1) |}.
Proof. vm_compute; intros H; inversion H. Qed.

(** C1 (amended).  For every reasoning text [r] that contains a
    non-whitespace character, the replies [r ++ "\n[[A]]"], [r ++ "\n[[B]]"]
    and [r ++ "\n[[C]]"] parse to value ["A"], ["B"], [None] with score [1],
    [0], [0.5], and reasoning [r] without its leading whitespace
    ([r.lstrip()], which is [r] itself when [r] starts with a non-space). *)
Theorem parse_verdict_replies (r : pystr) (Hr : forallb py_isspace r = false) :
  parse (r ++ NL :: lit "[[A]]")
    = Ok {| reasoning := py_lstrip r; value := Some (lit "A"); score := Some (PyInt 1) |}
  /\ parse (r ++ NL :: lit "[[B]]")
    = Ok {| reasoning := py_lstrip r; value := Some (lit "B"); score := Some (PyInt 0) |}
  /\ parse (r ++ NL :: lit "[[C]]")
    = Ok {| reasoning := py_lstrip r; value := None; score := Some (PyFloat (1 # 2)) |}.
Proof.
  repeat split; rewrite parse_reply; try rewrite Hr;
    try reflexivity; try discriminate; simpl; intuition discriminate.
Qed.

Lemma parse_verdict_replies_witness :
  forallb py_isspace (lit "B is more detailed.") = false
  /\ parse (lit "B is more detailed." ++ NL :: lit "[[B]]")
     = Ok {| reasoning := py_lstrip (lit "B is more detailed.");
             value := Some (lit "B"); score := Some (PyInt 0) |}.
Proof.
  split; [reflexivity|].
  apply (parse_verdict_replies (lit "B is more detailed.")); reflexivity.
Defined.

(** ** C2: single-line replies *)

(** C2.  When the trimmed reply contains no newline, [rsplit] returns one
    piece and the unpacking into [reasoning, verdict] raises. *)
Theorem parse_single_line (t : pystr) (H : ~ In NL (py_strip t)) :
  parse t = Err (ValueError unpack1_msg).
Proof.
  unfold parse; rewrite rsplit1_none by exact H; reflexivity.
Qed.

Lemma parse_single_line_witness :
  ~ In NL (py_strip (lit "  [[A]] "))
  /\ parse (lit "  [[A]] ") = Err (ValueError unpack1_msg).
Proof.
  split.
  - simpl; intuition discriminate.
  - apply parse_single_line; simpl; intuition discriminate.
Defined.

(** ** C3: invalid verdict tokens *)

(** C3.  When the trimmed reply splits into a reasoning and a last line whose
    bracket-stripped token is not one of ["A"], ["B"], ["C"], parsing raises
    a [ValueError] whose message contains that token. *)
Theorem parse_invalid_verdict (t r v : pystr)
    (Hsplit : rsplit1 NL (py_strip t) = [r; v])
    (Hv : py_in (strip_brackets v) [lit "A"; lit "B"; lit "C"] = false) :
  parse t = Err (ValueError (lit "Invalid verdict: " ++ strip_brackets v
                 ++ lit ". Verdict must be one of 'A', 'B', or 'C'.")).
Proof.
  unfold parse; rewrite Hsplit; cbn [res_bind unpack2]; rewrite Hv; reflexivity.
Qed.

Lemma parse_invalid_verdict_witness :
  rsplit1 NL (py_strip (lit "why" ++ NL :: lit "[[D]]")) = [lit "why"; lit "[[D]]"]
  /\ strip_brackets (lit "[[D]]") = lit "D"
  /\ parse (lit "why" ++ NL :: lit "[[D]]")
     = Err (ValueError (lit "Invalid verdict: " ++ lit "D"
            ++ lit ". Verdict must be one of 'A', 'B', or 'C'.")).
Proof.
  split; [reflexivity|]; split; [reflexivity|].
  apply (parse_invalid_verdict _ (lit "why") (lit "[[D]]")); reflexivity.
Defined.

(** ** C4: the bracket stripping is loose *)

Lemma lstrip_by_repeat (p : Z -> bool) (x : Z) (n : nat) (l : pystr) :
  p x = true -> lstrip_by p (repeat x n ++ l) = lstrip_by p l.
Proof.
  intros Hx; induction n as [|n IH]; simpl; [reflexivity|].
  rewrite Hx; exact IH.
Qed.

Lemma rstrip_by_snoc (p : Z -> bool) (l0 : pystr) (c : Z) :
  p c = false -> rstrip_by p (l0 ++ [c]) = l0 ++ [c].
Proof.
  intros Hc; unfold rstrip_by; rewrite rev_app_distr; simpl.
  rewrite Hc; simpl; rewrite rev_involutive; reflexivity.
Qed.

Lemma lstrip_by_cons_false (p : Z -> bool) (c : Z) (l : pystr) :
  p c = false -> lstrip_by p (c :: l) = c :: l.
Proof. intros Hc; simpl; rewrite Hc; reflexivity. Qed.

Lemma rstrip_by_A_closing (p : Z -> bool) (m : nat) :
  p 65 = false -> p 93 = false ->
  rstrip_by p (65 :: repeat 93 m) = 65 :: repeat 93 m.
Proof.
  intros H65 H93; destruct m as [|m].
  - apply (rstrip_by_snoc p []); exact H65.
  - change (65 :: repeat 93 (S m)) with (65 :: 93 :: repeat 93 m).
    rewrite repeat_cons, app_comm_cons; apply rstrip_by_snoc; exact H93.
Qed.

(** The last line ["[" * n + "A" + "]" * m], with 91 = '[' and 93 = ']'. *)
Lemma strip_brackets_line (n m : nat) :
  strip_brackets (repeat 91 n ++ lit "A" ++ repeat 93 m) = lit "A".
Proof.
  unfold strip_brackets, py_strip_chars, strip_by.
  set (pl := fun c => existsb (Z.eqb c) (lit "[")).
  set (pr := fun c => existsb (Z.eqb c) (lit "]")).
  change (lit "A" ++ repeat 93 m) with (65 :: repeat 93 m).
  rewrite lstrip_by_repeat by reflexivity.
  rewrite lstrip_by_cons_false by reflexivity.
  rewrite rstrip_by_A_closing by reflexivity.
  rewrite lstrip_by_cons_false by reflexivity.
  unfold rstrip_by; simpl; rewrite rev_repeat.
  rewrite lstrip_by_repeat by reflexivity.
  rewrite lstrip_by_cons_false by reflexivity.
  reflexivity.
Qed.

Lemma bracket_line_shape (n m : nat) :
  let l := repeat 91 n ++ lit "A" ++ repeat 93 m in
  l <> [] /\ lstrip_by py_isspace l = l /\ rstrip_by py_isspace l = l /\ ~ In NL l.
Proof.
  intros l; subst l; repeat split.
  - intros H; symmetry in H; exact (app_cons_not_nil _ _ _ H).
  - destruct n; reflexivity.
  - destruct m as [|m].
    + change (lit "A" ++ repeat 93 0) with [65]; apply rstrip_by_snoc; reflexivity.
    + change (lit "A" ++ repeat 93 (S m)) with (65 :: 93 :: repeat 93 m).
      rewrite repeat_cons, app_comm_cons, app_assoc; apply rstrip_by_snoc; reflexivity.
  - intros H; apply in_app_iff in H as [H|H];
      [|simpl in H; destruct H as [H|H]; [discriminate|]];
      apply repeat_spec in H; discriminate.
Qed.

(** C4 (counterexample).  With an empty reasoning text the reply ["\n[A]"]
    does not parse to value ["A"]: trimmed, it is the single line ["[A]"] and
    the unpacking raises (as it does for ["\n[[A]]"]). *)
Lemma parse_loose_brackets_empty_reasoning :
  parse ([] ++ NL :: lit "[A]") = Err (ValueError unpack1_msg)
  /\ parse ([] ++ NL :: lit "[[[A]]") = Err (ValueError unpack1_msg).
Proof. split; reflexivity. Qed.

(** C4 (amended).  [verdict.strip("[").strip("]")] removes any number of
    leading '[' and trailing ']': ["[" * n + "A" + "]" * m] strips to ["A"]
    for all [n], [m].  So for every reasoning text [r] and all [n], [m], the
    reply [r + "\n" + "[" * n + "A" + "]" * m] (among them ["[A]"] and
    ["[[[A]]"]) parses exactly as [r + "\n[[A]]"] does, same result or same
    error; that result has value ["A"] whenever [r] contains a
    non-whitespace character, and when [r] is empty or all whitespace every
    one of these replies fails with the unpacking error. *)
Theorem parse_loose_brackets (r : pystr) (n m : nat) :
  strip_brackets (repeat 91 n ++ lit "A" ++ repeat 93 m) = lit "A"
  /\ parse (r ++ NL :: repeat 91 n ++ lit "A" ++ repeat 93 m) = parse (r ++ NL :: lit "[[A]]")
  /\ parse (r ++ NL :: lit "[A]") = parse (r ++ NL :: lit "[[A]]")
  /\ parse (r ++ NL :: lit "[[[A]]") = parse (r ++ NL :: lit "[[A]]")
  /\ (forallb py_isspace r = false ->
      exists res0, parse (r ++ NL :: lit "[[A]]") = Ok res0 /\ value res0 = Some (lit "A"))
  /\ (forallb py_isspace r = true ->
      parse (r ++ NL :: repeat 91 n ++ lit "A" ++ repeat 93 m)
      = Err (ValueError unpack1_msg)).
Proof.
  assert (Hgen : forall n m,
    parse (r ++ NL :: repeat 91 n ++ lit "A" ++ repeat 93 m)
    = parse (r ++ NL :: lit "[[A]]")).
  { intros n0 m0.
    destruct (bracket_line_shape n0 m0) as (H1 & H2 & H3 & H4).
    destruct (bracket_line_shape 2 2) as (H1' & H2' & H3' & H4').
    change (lit "[[A]]") with (repeat 91 2 ++ lit "A" ++ repeat 93 2).
    rewrite (parse_reply r), (parse_reply r) by assumption.
    rewrite !strip_brackets_line; reflexivity. }
  split; [apply strip_brackets_line|].
  split; [apply Hgen|]; split; [apply (Hgen 1%nat 1%nat)|]; split;
    [apply (Hgen 3%nat 2%nat)|]; split.
  - intros Hr; eexists; split.
    + rewrite parse_reply; [rewrite Hr; reflexivity|..];
        try discriminate; try reflexivity; simpl; intuition discriminate.
    + reflexivity.
  - intros Hr.
    destruct (bracket_line_shape n m) as (H1 & H2 & H3 & H4).
    rewrite (parse_reply r) by assumption; rewrite Hr; reflexivity.
Qed.

Lemma parse_loose_brackets_witness :
  forallb py_isspace (lit "ok") = false
  /\ parse (lit "ok" ++ NL :: lit "[A]") = parse (lit "ok" ++ NL :: lit "[[A]]")
  /\ (exists res0, parse (lit "ok" ++ NL :: lit "[[A]]") = Ok res0
                   /\ value res0 = Some (lit "A"))
  /\ forallb py_isspace [32] = true
  /\ parse ([32] ++ NL :: repeat 91 1 ++ lit "A" ++ repeat 93 1)
     = Err (ValueError unpack1_msg).
Proof.
  split; [reflexivity|].
  destruct (parse_loose_brackets (lit "ok") 0 0) as (_ & _ & H1 & _ & H4 & _).
  split; [exact H1|]; split; [apply H4; reflexivity|].
  destruct (parse_loose_brackets [32] 1 1) as (_ & _ & _ & _ & _ & H6).
  split; [reflexivity|apply H6; reflexivity].
Defined.

(** ** C5: the score is a function of the value *)

(** C5.  Whenever parsing succeeds, the value is ["A"], ["B"] or [None] and
    the score is respectively [1], [0] or [0.5], whatever the reasoning. *)
Theorem parse_score_of_value (t : pystr) (res0 : parse_result)
    (H : parse t = Ok res0) :
  (value res0 = Some (lit "A") /\ score res0 = Some (PyInt 1))
  \/ (value res0 = Some (lit "B") /\ score res0 = Some (PyInt 0))
  \/ (value res0 = None /\ score res0 = Some (PyFloat (1 # 2))).
Proof.
  unfold parse in H.
  destruct (unpack2 (rsplit1 NL (py_strip t))) as [[rs v]|e]; cbn [res_bind] in H;
    [|discriminate].
  destruct (py_in (strip_brackets v) [lit "A"; lit "B"; lit "C"]) eqn:E;
    cbn [negb] in H; [|discriminate].
  destruct (in_ABC _ E) as [Hx|[Hx|Hx]]; rewrite Hx in H;
    inversion H; subst; simpl; auto.
Qed.

Lemma parse_score_of_value_witness :
  parse (lit "Both are correct." ++ NL :: lit "[[C]]")
    = Ok {| reasoning := lit "Both are correct."; value := None;
            score := Some (PyFloat (1 # 2)) |}
  /\ ((None : option pystr) = Some (lit "A") /\ Some (PyFloat (1 # 2)) = Some (PyInt 1)
      \/ (None : option pystr) = Some (lit "B") /\ Some (PyFloat (1 # 2)) = Some (PyInt 0)
      \/ (None : option pystr) = None /\ Some (PyFloat (1 # 2)) = Some (PyFloat (1 # 2))).
Proof.
  split; [reflexivity|].
  exact (parse_score_of_value (lit "Both are correct." ++ NL :: lit "[[C]]")
           {| reasoning := lit "Both are correct."; value := None;
              score := Some (PyFloat (1 # 2)) |} eq_refl).
Defined.

(** ** C6: the template check of [from_llm] *)

Lemma py_in_spec (x : pystr) (xs : list pystr) : py_in x xs = true <-> In x xs.
Proof.
  unfold py_in; rewrite existsb_exists; split.
  - intros (y & Hy & E); apply str_eqb_true in E; subst; exact Hy.
  - intros Hx; exists x; split; [exact Hx|apply str_eqb_true; reflexivity].
Qed.

Lemma set_eqb_spec (a b : list pystr) :
  set_eqb a b = true <-> (forall x, In x a <-> In x b).
Proof.
  unfold set_eqb; rewrite andb_true_iff, !forallb_forall; split.
  - intros [H1 H2] x; split; intros Hx;
      [apply py_in_spec, H1 | apply py_in_spec, H2]; exact Hx.
  - intros H; split; intros x Hx; apply py_in_spec, H; exact Hx.
Qed.

(** C6.  With a supplied template, [from_llm] succeeds, keeping that
    template, exactly when the template's input variables form the set
    {prediction, prediction_b, input}, plus reference when
    [requires_reference] is true; in particular [requires_reference=True]
    with a template that has no [reference] variable raises [ValueError]. *)
Theorem from_llm_supplied_prompt {L} (PROMPT PROMPT_WITH_REFERENCE : PromptTemplate)
    (repr_set repr_list : list pystr -> pystr) (llm0 : L) (p : PromptTemplate)
    (requires_reference0 : bool) :
  ((exists ch, from_llm PROMPT PROMPT_WITH_REFERENCE repr_set repr_list llm0
                 (Some p) requires_reference0 = Ok ch)
   <-> (forall x, In x ([lit "prediction"; lit "prediction_b"; lit "input"]
                        ++ (if requires_reference0 then [lit "reference"] else []))
                  <-> In x (input_variables p)))
  /\ (forall ch, from_llm PROMPT PROMPT_WITH_REFERENCE repr_set repr_list llm0
                   (Some p) requires_reference0 = Ok ch
                 -> ch = Build_PairwiseStringEvalChain llm0 p)
  /\ (~ In (lit "reference") (input_variables p) ->
      exists msg, from_llm PROMPT PROMPT_WITH_REFERENCE repr_set repr_list llm0
                    (Some p) true = Err (ValueError msg)).
Proof.
  assert (Hexp : forall rr : bool,
    (if rr then set_add (lit "reference") [lit "prediction"; lit "prediction_b"; lit "input"]
     else [lit "prediction"; lit "prediction_b"; lit "input"])
    = [lit "prediction"; lit "prediction_b"; lit "input"]
      ++ (if rr then [lit "reference"] else [])) by (intros []; reflexivity).
  unfold from_llm; cbn zeta beta iota.
  rewrite !Hexp.
  split; [|split].
  - rewrite <- set_eqb_spec.
    destruct (set_eqb _ (input_variables p)); simpl; split.
    + reflexivity.
    + intros _; eexists; reflexivity.
    + intros [ch Hch]; discriminate.
    + discriminate.
  - intros ch; destruct (set_eqb _ (input_variables p)); simpl;
      [intros H; inversion H; reflexivity | discriminate].
  - intros Hno.
    destruct (set_eqb _ (input_variables p)) eqn:E; simpl; [|eexists; reflexivity].
    exfalso; apply Hno.
    pose proof (proj1 (set_eqb_spec _ _) E) as E'; apply E'.
    simpl; auto 10.
Qed.

Lemma from_llm_supplied_prompt_witness :
  ~ In (lit "reference") (input_variables template_no_reference)
  /\ exists msg, from_llm template_no_reference template_no_reference
                   (fun _ => []) (fun _ => []) tt (Some template_no_reference) true
                 = Err (ValueError msg).
Proof.
  assert (H : ~ In (lit "reference") (input_variables template_no_reference))
    by (simpl; intuition discriminate).
  split; [exact H|].
  destruct (from_llm_supplied_prompt template_no_reference template_no_reference
              (fun _ => []) (fun _ => []) tt template_no_reference true)
    as (_ & _ & H3).
  apply H3; exact H.
Defined.

(** ** C7: payload assembly *)

(** C7.  [_prepare_input] always puts [prediction] and [prediction_b] in the
    payload; it raises when [input] is [None] or empty; when the template has
    a [reference] variable it raises when [reference] is [None] and accepts
    any other reference, the empty string included. *)
Theorem prepare_input_contract {L} (self : PairwiseStringEvalChain L)
    (prediction prediction_b : pystr) (input reference : option pystr) :
  (forall d, _prepare_input self prediction prediction_b input reference = Ok d ->
     dict_lookup d (lit "prediction") = Some prediction
     /\ dict_lookup d (lit "prediction_b") = Some prediction_b)
  /\ ((input = None \/ input = Some []) ->
      _prepare_input self prediction prediction_b input reference
      = Err (ValueError input_required_msg))
  /\ (requires_reference self = true -> reference = None ->
      exists msg, _prepare_input self prediction prediction_b input reference
                  = Err (ValueError msg))
  /\ (forall i r, input = Some i -> i <> [] -> reference = Some r ->
      exists d, _prepare_input self prediction prediction_b input reference = Ok d
                /\ dict_lookup d (lit "input") = Some i
                /\ (requires_reference self = true ->
                    dict_lookup d (lit "reference") = Some r)).
Proof.
  unfold _prepare_input.
  destruct (requires_reference self) eqn:Er;
    destruct input as [[|c i]|], reference as [r|];
    cbn [requires_input PairwiseStringEvalChain_EvalArgs py_not res_bind];
    repeat split; intros; try discriminate;
    repeat match goal with
           | H : Ok _ = Ok _ |- _ => inversion H; clear H; subst
           | H : _ \/ _ |- _ => destruct H
           | H : Some _ = Some _ |- _ => inversion H; clear H; subst
           end;
    try discriminate; try reflexivity; try (eexists; reflexivity);
    try (exfalso; congruence).
  all: eexists; split; [reflexivity|]; split; [reflexivity|]; intros; try discriminate;
       reflexivity.
Qed.

Lemma prepare_input_contract_witness :
  let self := Build_PairwiseStringEvalChain tt
                {| input_variables := [lit "prediction"; lit "prediction_b";
                                       lit "input"; lit "reference"] |} in
  _prepare_input self (lit "H2O") (lit "Water") (Some []) (Some [])
    = Err (ValueError input_required_msg)
  /\ exists d, _prepare_input self (lit "H2O") (lit "Water") (Some (lit "q")) (Some []) = Ok d
               /\ dict_lookup d (lit "input") = Some (lit "q")
               /\ (requires_reference self = true -> dict_lookup d (lit "reference") = Some []).
Proof.
  intros self.
  destruct (prepare_input_contract self (lit "H2O") (lit "Water") (Some []) (Some []))
    as (_ & H2 & _ & _).
  destruct (prepare_input_contract self (lit "H2O") (lit "Water") (Some (lit "q")) (Some []))
    as (_ & _ & _ & H4).
  split; [apply H2; right; reflexivity|].
  apply (H4 (lit "q") []); [reflexivity|discriminate|reflexivity].
Defined.

(** ** C8: the shared argument check *)

(** C8 (counterexample).  For the pairwise evaluator built on a template
    without [reference] ([requires_reference] false, [requires_input] true),
    called with [input=None] and a reference: the input check raises first,
    so the warning about the ignored reference is never emitted. *)
Lemma check_args_input_error_preempts_reference_warning :
  requires_reference chain_without_reference = false
  /\ requires_input chain_without_reference = true
  /\ ~ In (skip_reference_warning chain_without_reference)
         (fst (_check_evaluation_args chain_without_reference (Some (lit "x")) None)).
Proof.
  split; [reflexivity|]; split; [reflexivity|].
  simpl; tauto.
Qed.

(** C8 (amended).  For every evaluator: a required but missing input raises
    at once; an input given to an evaluator that does not require one emits
    the input warning and the check goes on as if no input had been given; a
    required but missing reference makes the check raise; and a reference
    given to an evaluator that does not require one emits the reference
    warning and the check succeeds, provided the input check did not raise
    first (a missing required input pre-empts the reference warning). *)
Theorem check_evaluation_args_rules {E} `{EvalArgs E} (self : E)
    (reference input : option pystr) :
  (requires_input self = true -> input = None ->
   _check_evaluation_args self reference input
   = ([], Err (ValueError (class_name self ++ lit " requires an input string."))))
  /\ (requires_input self = false -> input <> None ->
      _check_evaluation_args self reference input
      = (skip_input_warning self :: fst (_check_evaluation_args self reference None),
         snd (_check_evaluation_args self reference None)))
  /\ (requires_reference self = true -> reference = None ->
      exists msg, snd (_check_evaluation_args self reference input) = Err (ValueError msg))
  /\ (requires_reference self = false -> reference <> None ->
      ~ (requires_input self = true /\ input = None) ->
      In (skip_reference_warning self) (fst (_check_evaluation_args self reference input))
      /\ snd (_check_evaluation_args self reference input) = Ok tt).
Proof.
  unfold _check_evaluation_args.
  destruct (requires_input self) eqn:Ei, (requires_reference self) eqn:Er,
    input as [i|], reference as [r|];
    simpl; repeat split; intros; try discriminate; try congruence;
    try (eexists; reflexivity); try (exfalso; tauto); simpl; auto.
Qed.

Lemma check_evaluation_args_rules_witness :
  requires_input chain_without_reference = true
  /\ _check_evaluation_args chain_without_reference None None
     = ([], Err (ValueError (chain_name ++ lit " requires an input string."))).
Proof.
  split; [reflexivity|].
  destruct (check_evaluation_args_rules chain_without_reference None None) as (H1 & _).
  apply H1; reflexivity.
Defined.

(** ** C9: the synchronous and asynchronous paths *)

Lemma mbind_assoc {A B C} (m : M A) (f : A -> M B) (g : B -> M C) :
  (m >>= f) >>= g = m >>= (fun x => f x >>= g).
Proof.
  destruct m as [w1 [a|e]]; simpl; [|reflexivity].
  destruct (f a) as [w2 [b|e2]]; simpl; [|reflexivity].
  destruct (g b) as [w3 r]; rewrite app_assoc; reflexivity.
Qed.

(** C9.  Both entry points run the same argument check and the same payload
    assembly and differ only in the completion call they hand the payload to
    ([self(...)] or [self.acall(...)]); with the same completion behaviour
    they produce the same warnings and the same outcome. *)
Theorem sync_async_same_validation {L Out R}
    (call acall : PairwiseStringEvalChain L -> payload -> M Out) (get_text : Out -> R)
    (self : PairwiseStringEvalChain L) (prediction prediction_b : pystr)
    (reference input : option pystr) :
  let validated :=
    _check_evaluation_args self reference input >>= fun _ =>
    mlift (_prepare_input self prediction prediction_b input reference) in
  evaluate_string_pairs call get_text self prediction prediction_b reference input
  = (validated >>= fun input_ => call self input_ >>= fun o => mret (get_text o))
  /\ aevaluate_string_pairs acall get_text self prediction prediction_b reference input
     = (validated >>= fun input_ => acall self input_ >>= fun o => mret (get_text o))
  /\ ((forall input_, call self input_ = acall self input_) ->
      evaluate_string_pairs call get_text self prediction prediction_b reference input
      = aevaluate_string_pairs acall get_text self prediction prediction_b reference input).
Proof.
  intros validated.
  assert (Hs : evaluate_string_pairs call get_text self prediction prediction_b reference input
               = (validated >>= fun input_ => call self input_ >>= fun o => mret (get_text o)))
    by (unfold validated; rewrite mbind_assoc; reflexivity).
  assert (Ha : aevaluate_string_pairs acall get_text self prediction prediction_b reference input
               = (validated >>= fun input_ => acall self input_ >>= fun o => mret (get_text o)))
    by (unfold validated; rewrite mbind_assoc; reflexivity).
  split; [exact Hs|]; split; [exact Ha|].
  intros Hc; rewrite Hs, Ha.
  destruct validated as [w [p|e]]; simpl; [rewrite Hc|]; reflexivity.
Qed.

Lemma sync_async_same_validation_witness :
  (forall input_ : payload,
     (fun (_ : PairwiseStringEvalChain unit) (_ : payload) => mret (lit "ok")) chain_without_reference input_
     = (fun (_ : PairwiseStringEvalChain unit) (_ : payload) => mret (lit "ok")) chain_without_reference input_)
  /\ evaluate_string_pairs (fun _ _ => mret (lit "ok")) (fun o : pystr => o)
       chain_without_reference (lit "H2O") (lit "Water") None (Some (lit "q"))
     = aevaluate_string_pairs (fun _ _ => mret (lit "ok")) (fun o : pystr => o)
       chain_without_reference (lit "H2O") (lit "Water") None (Some (lit "q")).
Proof.
  split; [intros; reflexivity|].
  destruct (sync_async_same_validation (fun _ _ => mret (lit "ok")) (fun _ _ => mret (lit "ok"))
              (fun o : pystr => o) chain_without_reference (lit "H2O") (lit "Water")
              None (Some (lit "q"))) as (_ & _ & H3).
  apply H3; intros; reflexivity.
Defined.

(** ** C10: the pairwise evaluator always requires an input *)

(** C10.  [requires_input] of the pairwise evaluator is [True] for every
    chain, whatever its model and template; so both entry points raise on a
    call whose input is [None] or empty, whatever the completion call does. *)
Theorem pairwise_requires_input {L} (self : PairwiseStringEvalChain L) :
  requires_input self = true
  /\ forall Out R (call acall : PairwiseStringEvalChain L -> payload -> M Out)
            (get_text : Out -> R) prediction prediction_b reference input,
     (input = None \/ input = Some []) ->
     (exists w msg, evaluate_string_pairs call get_text self prediction prediction_b
                      reference input = (w, Err (ValueError msg)))
     /\ (exists w msg, aevaluate_string_pairs acall get_text self prediction prediction_b
                         reference input = (w, Err (ValueError msg))).
Proof.
  split; [reflexivity|].
  intros Out R call acall get_text prediction prediction_b reference input Hi.
  unfold evaluate_string_pairs, aevaluate_string_pairs, _evaluate_string_pairs,
    _aevaluate_string_pairs, _check_evaluation_args, _prepare_input.
  destruct Hi as [-> | ->];
    destruct (requires_reference self), reference;
    simpl; split; eexists; eexists; reflexivity.
Qed.

Lemma pairwise_requires_input_witness :
  exists w msg, evaluate_string_pairs (fun _ _ => mret (lit "ok")) (fun o : pystr => o)
                  chain_without_reference (lit "H2O") (lit "Water") None (Some [])
                = (w, Err (ValueError msg)).
Proof.
  destruct (pairwise_requires_input chain_without_reference) as (_ & H).
  apply (H pystr pystr (fun _ _ => mret (lit "ok")) (fun _ _ => mret (lit "ok"))
           (fun o => o) (lit "H2O") (lit "Water") None (Some [])).
  right; reflexivity.
Defined.

(** * Further properties of the code *)

(** ** The verdict parser *)

Lemma break_at_some (sep : Z) (s x y : pystr) :
  break_at sep s = Some (x, y) -> s = x ++ sep :: y /\ ~ In sep x.
Proof.
  revert x y; induction s as [|c s IH]; intros x y H; simpl in H; [discriminate|].
  destruct (Z.eqb_spec c sep) as [E|E].
  - inversion H; subst; split; [reflexivity|intros []].
  - destruct (break_at sep s) as [[a b]|] eqn:Eb; [|discriminate].
    inversion H; subst.
    destruct (IH a y eq_refl) as [-> Ha]; split; [reflexivity|].
    intros [Hc|Hc]; [congruence|exact (Ha Hc)].
Qed.

Lemma rsplit1_cases (sep : Z) (s : pystr) :
  (rsplit1 sep s = [s] /\ ~ In sep s)
  \/ exists a b, rsplit1 sep s = [a; b] /\ s = a ++ sep :: b /\ ~ In sep b.
Proof.
  unfold rsplit1.
  destruct (break_at sep (rev s)) as [[x y]|] eqn:E.
  - right; exists (rev y), (rev x); split; [reflexivity|].
    apply break_at_some in E as [Es Hx].
    split.
    + rewrite <- (rev_involutive s), Es, rev_app_distr; simpl.
      rewrite <- app_assoc; reflexivity.
    + intros H; apply Hx, in_rev; exact H.
  - left; split; [reflexivity|].
    intros H; apply in_rev in H.
    clear -E H; induction (rev s) as [|c l IH]; [exact H|].
    simpl in E, H; destruct (Z.eqb_spec c sep) as [Ec|Ec]; [discriminate|].
    destruct (break_at sep l) as [[a b]|]; [discriminate|].
    destruct H as [H|H]; [congruence|exact (IH eq_refl H)].
Qed.

Lemma lstrip_by_suffix (p : Z -> bool) (s : pystr) :
  exists pre, s = pre ++ lstrip_by p s.
Proof.
  induction s as [|c s IH]; simpl; [exists []; reflexivity|].
  destruct (p c); [destruct IH as [pre E]; exists (c :: pre); simpl; congruence|].
  exists []; reflexivity.
Qed.

Lemma lstrip_by_head (p : Z -> bool) (s r : pystr) (c : Z) :
  lstrip_by p s = c :: r -> p c = false.
Proof.
  induction s as [|d s IH]; simpl; [discriminate|].
  destruct (p d) eqn:Ed; [exact IH|intros H; inversion H; subst; exact Ed].
Qed.

Lemma rstrip_by_prefix (p : Z -> bool) (s : pystr) :
  exists suf, s = rstrip_by p s ++ suf.
Proof.
  destruct (lstrip_by_suffix p (rev s)) as [pre E].
  exists (rev pre); unfold rstrip_by.
  rewrite <- rev_app_distr, <- E, rev_involutive; reflexivity.
Qed.

(** The trimmed text never starts with whitespace. *)
Lemma py_strip_head (s r : pystr) (c : Z) :
  py_strip s = c :: r -> py_isspace c = false.
Proof.
  unfold py_strip, strip_by; intros H.
  destruct (rstrip_by_prefix py_isspace (lstrip_by py_isspace s)) as [suf E].
  rewrite H in E; simpl in E.
  apply (lstrip_by_head _ _ _ _ E).
Qed.

(** On success the trimmed reply is the returned reasoning, a newline and a
    last line without newline whose bracket-stripped token is "A", "B" or
    "C"; the value is that token, or [None] for "C". *)
Theorem parse_ok_decomposition (t : pystr) (res0 : parse_result)
    (H : parse t = Ok res0) :
  exists line,
    py_strip t = reasoning res0 ++ NL :: line
    /\ ~ In NL line
    /\ py_in (strip_brackets line) [lit "A"; lit "B"; lit "C"] = true
    /\ value res0 = (if str_eqb (strip_brackets line) (lit "C") then None
                     else Some (strip_brackets line)).
Proof.
  unfold parse in H.
  destruct (rsplit1_cases NL (py_strip t)) as [[E _]|(a & b & E & Es & Hb)];
    rewrite E in H; cbn [unpack2 res_bind] in H; [discriminate|].
  destruct (py_in (strip_brackets b) [lit "A"; lit "B"; lit "C"]) eqn:Ein;
    cbn [negb] in H; [|discriminate].
  inversion H; subst; exists b; simpl; auto.
Qed.

Lemma parse_ok_decomposition_witness :
  parse (lit " x" ++ NL :: lit "[[C]] ")
    = Ok {| reasoning := lit "x"; value := None; score := Some (PyFloat (1 # 2)) |}
  /\ exists line,
    py_strip (lit " x" ++ NL :: lit "[[C]] ") = lit "x" ++ NL :: line
    /\ ~ In NL line
    /\ py_in (strip_brackets line) [lit "A"; lit "B"; lit "C"] = true
    /\ (None : option pystr) = (if str_eqb (strip_brackets line) (lit "C") then None
                                else Some (strip_brackets line)).
Proof.
  split; [reflexivity|].
  exact (parse_ok_decomposition (lit " x" ++ NL :: lit "[[C]] ") {| reasoning := lit "x"; value := None;
                                     score := Some (PyFloat (1 # 2)) |} eq_refl).
Defined.

(** On success the reasoning is never empty and never starts with
    whitespace. *)
Theorem parse_ok_reasoning_head (t : pystr) (res0 : parse_result)
    (H : parse t = Ok res0) :
  exists c rest, reasoning res0 = c :: rest /\ py_isspace c = false.
Proof.
  destruct (parse_ok_decomposition t res0 H) as (line & Es & _).
  destruct (reasoning res0) as [|c rest] eqn:Er.
  - simpl in Es; apply py_strip_head in Es; discriminate.
  - exists c, rest; split; [reflexivity|].
    exact (py_strip_head _ _ _ Es).
Qed.

Lemma parse_ok_reasoning_head_witness :
  parse (lit "ok" ++ NL :: lit "[[A]]")
    = Ok {| reasoning := lit "ok"; value := Some (lit "A"); score := Some (PyInt 1) |}
  /\ exists c rest, lit "ok" = c :: rest /\ py_isspace c = false.
Proof.
  split; [reflexivity|].
  exact (parse_ok_reasoning_head (lit "ok" ++ NL :: lit "[[A]]") {| reasoning := lit "ok"; value := Some (lit "A");
                                      score := Some (PyInt 1) |} eq_refl).
Defined.

(** The parser raises only two errors: the unpacking error of a single-line
    reply, and the invalid-verdict error for a token outside A, B, C; the
    other unpacking errors never occur. *)
Theorem parse_error_kinds (t : pystr) (e : exn) (H : parse t = Err e) :
  (e = ValueError unpack1_msg /\ ~ In NL (py_strip t))
  \/ exists v, py_in v [lit "A"; lit "B"; lit "C"] = false
               /\ e = ValueError (invalid_verdict_msg v).
Proof.
  unfold parse in H.
  destruct (rsplit1_cases NL (py_strip t)) as [[E Hn]|(a & b & E & Es & Hb)];
    rewrite E in H; cbn [unpack2 res_bind] in H.
  - left; inversion H; split; [reflexivity|exact Hn].
  - destruct (py_in (strip_brackets b) [lit "A"; lit "B"; lit "C"]) eqn:Ein;
      cbn [negb] in H; [discriminate|].
    right; exists (strip_brackets b); inversion H; split; [exact Ein|reflexivity].
Qed.

Lemma parse_error_kinds_witness :
  parse (lit "x" ++ NL :: lit "[[D]]") = Err (ValueError (invalid_verdict_msg (lit "D")))
  /\ ((ValueError (invalid_verdict_msg (lit "D")) = ValueError unpack1_msg
       /\ ~ In NL (py_strip (lit "x" ++ NL :: lit "[[D]]")))
      \/ exists v, py_in v [lit "A"; lit "B"; lit "C"] = false
                   /\ ValueError (invalid_verdict_msg (lit "D"))
                      = ValueError (invalid_verdict_msg v)).
Proof.
  split; [reflexivity|].
  exact (parse_error_kinds (lit "x" ++ NL :: lit "[[D]]") _ eq_refl).
Defined.

Lemma forallb_rev (p : Z -> bool) (l : pystr) : forallb p (rev l) = forallb p l.
Proof.
  induction l as [|c l IH]; simpl; [reflexivity|].
  rewrite forallb_app, IH; simpl; rewrite andb_true_r, andb_comm; reflexivity.
Qed.

Lemma rstrip_by_app_space (p : Z -> bool) (x b : pystr) :
  forallb p b = true -> rstrip_by p (x ++ b) = rstrip_by p x.
Proof.
  intros Hb; unfold rstrip_by.
  rewrite rev_app_distr, lstrip_by_app, forallb_rev, Hb; reflexivity.
Qed.

Lemma py_strip_pad (a t b : pystr) :
  forallb py_isspace a = true -> forallb py_isspace b = true ->
  py_strip (a ++ t ++ b) = py_strip t.
Proof.
  intros Ha Hb; unfold py_strip, strip_by.
  rewrite lstrip_by_app, Ha, lstrip_by_app.
  destruct (forallb py_isspace t) eqn:Et.
  - rewrite (lstrip_by_all _ b Hb), (lstrip_by_all _ t Et); reflexivity.
  - apply rstrip_by_app_space; exact Hb.
Qed.

(** Whitespace around the reply does not change what the parser returns or
    raises. *)
Theorem parse_ignores_surrounding_whitespace (a t b : pystr)
    (Ha : forallb py_isspace a = true) (Hb : forallb py_isspace b = true) :
  parse (a ++ t ++ b) = parse t.
Proof.
  unfold parse; rewrite py_strip_pad by assumption; reflexivity.
Qed.

Lemma parse_ignores_surrounding_whitespace_witness :
  forallb py_isspace [NL; 32] = true /\ forallb py_isspace [9] = true
  /\ parse ([NL; 32] ++ (lit "why" ++ NL :: lit "[[B]]") ++ [9])
     = parse (lit "why" ++ NL :: lit "[[B]]").
Proof.
  split; [reflexivity|]; split; [reflexivity|].
  apply parse_ignores_surrounding_whitespace; reflexivity.
Defined.

(** ** Construction and payload *)

Lemma from_llm_ok_inv {L} (PROMPT PROMPT_WITH_REFERENCE : PromptTemplate)
    (repr_set repr_list : list pystr -> pystr) (llm0 : L)
    (prompt0 : option PromptTemplate) (rr : bool) (ch : PairwiseStringEvalChain L) :
  from_llm PROMPT PROMPT_WITH_REFERENCE repr_set repr_list llm0 prompt0 rr = Ok ch ->
  ch = Build_PairwiseStringEvalChain llm0
         (match prompt0 with
          | Some p => p
          | None => if rr then PROMPT_WITH_REFERENCE else PROMPT
          end)
  /\ (forall x, In x ([lit "prediction"; lit "prediction_b"; lit "input"]
                      ++ (if rr then [lit "reference"] else []))
                <-> In x (input_variables (prompt ch))).
Proof.
  unfold from_llm.
  destruct prompt0 as [p|], rr;
    [change (set_add (lit "reference") [lit "prediction"; lit "prediction_b"; lit "input"])
       with ([lit "prediction"; lit "prediction_b"; lit "input"] ++ [lit "reference"])
    | |change (set_add (lit "reference") [lit "prediction"; lit "prediction_b"; lit "input"])
       with ([lit "prediction"; lit "prediction_b"; lit "input"] ++ [lit "reference"]) |];
    cbn iota zeta beta;
    match goal with
    | |- context [set_eqb ?a ?b] => destruct (set_eqb a b) eqn:E
    end;
    cbn [negb]; intros H; inversion H; subst; split; try reflexivity;
    pose proof (proj1 (set_eqb_spec _ _) E) as E'; cbn [prompt]; rewrite ?app_nil_r;
    exact E'.
Qed.

Lemma py_in_reference_iff (xs : list pystr) :
  py_in (lit "reference") xs = true <-> In (lit "reference") xs.
Proof. apply py_in_spec. Qed.

(** A chain built by [from_llm] requires a reference exactly when it was
    built with [requires_reference=True], whether the template was supplied
    or is one of the defaults. *)
Theorem from_llm_requires_reference {L} (PROMPT PROMPT_WITH_REFERENCE : PromptTemplate)
    (repr_set repr_list : list pystr -> pystr) (llm0 : L)
    (prompt0 : option PromptTemplate) (rr : bool) (ch : PairwiseStringEvalChain L)
    (H : from_llm PROMPT PROMPT_WITH_REFERENCE repr_set repr_list llm0 prompt0 rr = Ok ch) :
  requires_reference ch = rr.
Proof.
  destruct (from_llm_ok_inv _ _ _ _ _ _ _ _ H) as [_ Hset].
  cbn [requires_reference PairwiseStringEvalChain_EvalArgs].
  destruct rr.
  - apply py_in_reference_iff, Hset; simpl; auto 10.
  - apply not_true_is_false; intros Hin; apply py_in_reference_iff, Hset in Hin.
    simpl in Hin; intuition discriminate.
Qed.

Lemma from_llm_requires_reference_witness :
  from_llm template_no_reference template_with_reference (fun _ => []) (fun _ => []) tt
    None true = Ok (Build_PairwiseStringEvalChain tt template_with_reference)
  /\ requires_reference (Build_PairwiseStringEvalChain tt template_with_reference) = true.
Proof.
  split; [reflexivity|].
  exact (from_llm_requires_reference template_no_reference template_with_reference
           (fun _ => []) (fun _ => []) tt None true _ eq_refl).
Defined.

(** Without a supplied template [from_llm] takes the template with a
    reference slot when [requires_reference] is true and the other one
    otherwise, and succeeds exactly when that default's variables are the
    expected set. *)
Theorem from_llm_default_template {L} (PROMPT PROMPT_WITH_REFERENCE : PromptTemplate)
    (repr_set repr_list : list pystr -> pystr) (llm0 : L) (rr : bool) :
  ((exists ch, from_llm PROMPT PROMPT_WITH_REFERENCE repr_set repr_list llm0 None rr = Ok ch)
   <-> (forall x, In x ([lit "prediction"; lit "prediction_b"; lit "input"]
                        ++ (if rr then [lit "reference"] else []))
                  <-> In x (input_variables
                              (if rr then PROMPT_WITH_REFERENCE else PROMPT))))
  /\ (forall ch, from_llm PROMPT PROMPT_WITH_REFERENCE repr_set repr_list llm0 None rr = Ok ch
       -> prompt ch = if rr then PROMPT_WITH_REFERENCE else PROMPT).
Proof.
  split.
  - split.
    + intros [ch Hch]; destruct (from_llm_ok_inv _ _ _ _ _ _ _ _ Hch) as [-> Hs];
        exact Hs.
    + intros Hs; apply (proj2 (set_eqb_spec _ _)) in Hs.
      unfold from_llm; destruct rr;
        [change (set_add (lit "reference") [lit "prediction"; lit "prediction_b"; lit "input"])
           with ([lit "prediction"; lit "prediction_b"; lit "input"] ++ [lit "reference"])|];
        cbn iota zeta beta; cbn iota in Hs; rewrite ?app_nil_r in Hs; rewrite Hs;
        eexists; reflexivity.
  - intros ch Hch; destruct (from_llm_ok_inv _ _ _ _ _ _ _ _ Hch) as [-> _]; reflexivity.
Qed.

Lemma prepare_input_keys {L} (self : PairwiseStringEvalChain L)
    (prediction prediction_b : pystr) (input reference : option pystr) (d : payload) :
  _prepare_input self prediction prediction_b input reference = Ok d ->
  map fst d = [lit "prediction"; lit "prediction_b"; lit "input"]
              ++ (if requires_reference self then [lit "reference"] else []).
Proof.
  unfold _prepare_input.
  destruct (requires_reference self), input as [[|c i]|], reference as [r|];
    cbn [requires_input PairwiseStringEvalChain_EvalArgs py_not res_bind];
    intros H; try discriminate; inversion H; reflexivity.
Qed.

(** For a chain built by [from_llm], every payload [_prepare_input] builds
    has as keys exactly the template's input variables (as a set): no
    variable is dropped and none is added. *)
Theorem from_llm_payload_matches_template {L} (PROMPT PROMPT_WITH_REFERENCE : PromptTemplate)
    (repr_set repr_list : list pystr -> pystr) (llm0 : L)
    (prompt0 : option PromptTemplate) (rr : bool) (ch : PairwiseStringEvalChain L)
    (prediction prediction_b : pystr) (input reference : option pystr) (d : payload)
    (Hch : from_llm PROMPT PROMPT_WITH_REFERENCE repr_set repr_list llm0 prompt0 rr = Ok ch)
    (Hd : _prepare_input ch prediction prediction_b input reference = Ok d) :
  forall x, In x (map fst d) <-> In x (input_variables (prompt ch)).
Proof.
  rewrite (prepare_input_keys _ _ _ _ _ _ Hd), (from_llm_requires_reference _ _ _ _ _ _ _ _ Hch).
  destruct (from_llm_ok_inv _ _ _ _ _ _ _ _ Hch) as [_ Hs]; exact Hs.
Qed.

Lemma from_llm_payload_matches_template_witness :
  from_llm template_no_reference template_with_reference (fun _ => []) (fun _ => []) tt
    None true = Ok (Build_PairwiseStringEvalChain tt template_with_reference)
  /\ _prepare_input (Build_PairwiseStringEvalChain tt template_with_reference)
       (lit "H2O") (lit "Water") (Some (lit "q")) (Some [])
     = Ok [(lit "prediction", lit "H2O"); (lit "prediction_b", lit "Water");
           (lit "input", lit "q"); (lit "reference", [])]
  /\ (forall x, In x [lit "prediction"; lit "prediction_b"; lit "input"; lit "reference"]
                <-> In x (input_variables template_with_reference)).
Proof.
  split; [reflexivity|]; split; [reflexivity|].
  exact (from_llm_payload_matches_template template_no_reference template_with_reference
           (fun _ => []) (fun _ => []) tt None true _ (lit "H2O") (lit "Water")
           (Some (lit "q")) (Some []) _ eq_refl eq_refl).
Defined.

(** ** Argument check and entry points *)

(** For the pairwise chain the shared check passes exactly when an input is
    given and, if the template has a [reference] variable, a reference too;
    with an input given, its only possible warning is the chain's own
    "reference ignored" text, emitted when a reference is given to a chain
    whose template has no [reference] variable. *)
Theorem pairwise_check_outcome {L} (self : PairwiseStringEvalChain L)
    (reference input : option pystr) :
  (snd (_check_evaluation_args self reference input) = Ok tt
   <-> input <> None /\ (requires_reference self = true -> reference <> None))
  /\ (input <> None ->
      fst (_check_evaluation_args self reference input)
      = if negb (requires_reference self) && negb (is_none reference)
        then [skip_reference_warning self] else []).
Proof.
  unfold _check_evaluation_args.
  destruct (requires_reference self) eqn:Er, input as [i|], reference as [r|];
    cbn [requires_input PairwiseStringEvalChain_EvalArgs is_none negb andb mbind
         mret mraise warn fst snd app];
    rewrite ?Er; cbn [negb andb mbind mret mraise warn fst snd app];
    repeat split; intros; try discriminate; try reflexivity;
    try (exfalso; intuition congruence);
    intuition congruence.
Qed.

Lemma pairwise_check_outcome_witness :
  fst (_check_evaluation_args chain_without_reference (Some (lit "r")) (Some (lit "q")))
  = [skip_reference_warning chain_without_reference].
Proof.
  destruct (pairwise_check_outcome chain_without_reference (Some (lit "r")) (Some (lit "q")))
    as (_ & H2).
  apply H2; discriminate.
Defined.

(** Usage errors come before the completion call: when the argument check or
    the payload assembly raises, both entry points return that error with the
    warnings emitted so far, whatever the completion call would do. *)
Theorem evaluate_fails_before_call {L Out R}
    (call acall : PairwiseStringEvalChain L -> payload -> M Out) (get_text : Out -> R)
    (self : PairwiseStringEvalChain L) (prediction prediction_b : pystr)
    (reference input : option pystr) (w : list pystr) (e : exn)
    (Hv : (_check_evaluation_args self reference input >>= fun _ =>
           mlift (_prepare_input self prediction prediction_b input reference)) = (w, Err e)) :
  evaluate_string_pairs call get_text self prediction prediction_b reference input = (w, Err e)
  /\ aevaluate_string_pairs acall get_text self prediction prediction_b reference input
     = (w, Err e).
Proof.
  unfold evaluate_string_pairs, aevaluate_string_pairs,
    _evaluate_string_pairs, _aevaluate_string_pairs.
  rewrite <- !mbind_assoc, Hv; split; reflexivity.
Qed.

Lemma evaluate_fails_before_call_witness :
  evaluate_string_pairs (fun _ _ => mret (lit "ok")) (fun o : pystr => o)
    chain_without_reference (lit "H2O") (lit "Water") (Some (lit "r")) (Some [])
  = ([skip_reference_warning chain_without_reference], Err (ValueError input_required_msg)).
Proof.
  apply (evaluate_fails_before_call (fun _ _ => mret (lit "ok")) (fun _ _ => mret (lit "ok"))
           (fun o : pystr => o) chain_without_reference (lit "H2O") (lit "Water")
           (Some (lit "r")) (Some [])).
  reflexivity.
Defined.

(** With a non-empty input the completion call receives the payload
    prediction, prediction_b, input (and reference when the template has a
    [reference] variable), in that order; a reference given to a chain
    without one only adds the "reference ignored" warning and is left out of
    the payload. *)
Theorem evaluate_payload_sent {L Out R}
    (call : PairwiseStringEvalChain L -> payload -> M Out) (get_text : Out -> R)
    (self : PairwiseStringEvalChain L) (prediction prediction_b i : pystr)
    (reference : option pystr) (Hi : i <> []) :
  (requires_reference self = false ->
   evaluate_string_pairs call get_text self prediction prediction_b reference (Some i)
   = ((if is_none reference then mret tt else warn (skip_reference_warning self)) >>= fun _ =>
      call self [(lit "prediction", prediction); (lit "prediction_b", prediction_b);
                 (lit "input", i)] >>= fun o => mret (get_text o)))
  /\ (forall r, requires_reference self = true -> reference = Some r ->
      evaluate_string_pairs call get_text self prediction prediction_b reference (Some i)
      = (call self [(lit "prediction", prediction); (lit "prediction_b", prediction_b);
                    (lit "input", i); (lit "reference", r)] >>= fun o => mret (get_text o))).
Proof.
  destruct i as [|c i]; [congruence|].
  unfold evaluate_string_pairs, _evaluate_string_pairs, _check_evaluation_args,
    _prepare_input.
  split; [intros Er|intros r Er ->]; rewrite Er;
    [destruct reference as [r|]|];
    simpl; destruct (call _ _) as [w [o|e]]; reflexivity.
Qed.

Lemma evaluate_payload_sent_witness :
  evaluate_string_pairs (fun _ p => mret (map fst p)) (fun o => o)
    chain_without_reference (lit "H2O") (lit "Water") None (Some (lit "q"))
  = (mret tt >>= fun _ =>
     mret (map fst [(lit "prediction", lit "H2O"); (lit "prediction_b", lit "Water");
                    (lit "input", lit "q")]) >>= fun o => mret o).
Proof.
  destruct (evaluate_payload_sent (fun _ p => mret (map fst p)) (fun o => o)
              chain_without_reference (lit "H2O") (lit "Water") (lit "q") None)
    as (H1 & _); [discriminate|].
  apply H1; reflexivity.
Defined.

(** An evaluator that requires neither an input nor a reference never fails
    the check; it warns once for a given input, then once for a given
    reference, in that order. *)
Theorem check_args_optional_only {E} `{EvalArgs E} (self : E)
    (reference input : option pystr)
    (Hi : requires_input self = false) (Hr : requires_reference self = false) :
  _check_evaluation_args self reference input
  = ((if is_none input then [] else [skip_input_warning self])
     ++ (if is_none reference then [] else [skip_reference_warning self]), Ok tt).
Proof.
  unfold _check_evaluation_args; rewrite Hi, Hr.
  destruct input, reference; reflexivity.
Qed.

Lemma check_args_optional_only_witness :
  _check_evaluation_args {| plain_class_name := lit "Exact" |} (Some (lit "r")) (Some (lit "q"))
  = ([mixin_skip_input_warning (lit "Exact"); mixin_skip_reference_warning (lit "Exact")],
     Ok tt).
Proof.
  rewrite (check_args_optional_only {| plain_class_name := lit "Exact" |}
             (Some (lit "r")) (Some (lit "q"))); reflexivity.
Defined.
